(** * pytorch_lightning/plugins/ddp_plugin.py

    A shallow embedding of [DDPPlugin] and the properties of its four
    methods.  The plugin is glue code: it keeps a keyword-argument
    dictionary, forwards it to the [LightningDistributedDataParallel]
    constructor, writes three entries of [os.environ] and calls
    [torch.distributed.init_process_group] behind an [is_initialized]
    guard.  Everything the methods read or write is kept in one explicit
    state, and every outward call is appended to a log, so that "how many
    times" and "in which order" are statements about that log. *)

From stdpp Require Import base strings gmap list pretty.

(** ** Python values *)

Module Py.

(** The scalar values that reach this file: the values of the
    keyword-argument dictionary and the results of the cluster
    environment's methods. *)
Inductive value : Type :=
| None_
| Bool (b : bool)
| Int (z : Z)
| Str (s : string).

(** Python's [str(v)] on these values. *)
Definition str (v : value) : string :=
  match v with
  | None_ => "None"
  | Bool true => "True"
  | Bool false => "False"
  | Int z => pretty z
  | Str s => s
  end.

(** Exceptions.  The first is the one this file can raise by itself: a
    call [f(..., k=v, **d)] whose dictionary [d] has the key [k] again is
    a [TypeError] (multiple values for keyword argument [k]), raised while
    the arguments are put together, before [f] runs; a callee raises the
    same when a keyword names a parameter that a positional argument has
    filled.  The other two come from a callee only: a keyword its
    signature does not have, and any failure inside the library (its
    Python class depends on the release of the library). *)
Inductive exn : Type :=
| TypeError_multiple_values (keyword : string)
| TypeError_unexpected_keyword (keyword : string)
| LibraryError (message : string).

(** [d.get(k, dflt)] *)
Definition get {V} (d : gmap string V) (k : string) (dflt : V) : V :=
  default dflt (d !! k).

End Py.

Global Instance value_eq_dec : EqDecision Py.value.
Proof. solve_decision. Defined.

Global Instance exn_eq_dec : EqDecision Py.exn.
Proof. solve_decision. Defined.

(** ** The objects the methods receive *)

(** [trainer]: only [trainer.on_gpu] is read. *)
Record Trainer : Type := { on_gpu : bool }.

(** [cluster_environment]: an object with three methods without
    arguments; the record holds what each call returns. *)
Module ClusterEnvironment.
Record t : Type :=
  { master_address : Py.value;
    master_port : Py.value;
    world_size : Py.value }.
End ClusterEnvironment.

(** [torch.optim.Optimizer]: only [optimizer.state_dict()] is used. *)
Class Optimizer (O D : Type) : Type :=
  state_dict : O -> D.

(** [torch.distributed]: the library's process-group state, the query
    the guard reads and the call that sets the group up.  The library
    promises that a group that was set up answers [True]. *)
Class TorchDistrib (T : Type) : Type :=
  { is_initialized : T -> bool;
    init_process_group : string -> Z -> Z -> T -> T;
    init_process_group_initialized : forall backend rank world_size t,
        is_initialized (init_process_group backend rank world_size t) = true }.

(** The constructor of [LightningDistributedDataParallel].  The class is
    defined in [pytorch_lightning.overrides.data_parallel] on top of
    torch's [DistributedDataParallel], outside this file, so what the
    constructor makes of its arguments is a parameter: given the module,
    the [device_ids], the other keyword arguments and the state of
    [torch.distributed], it accepts them ([None]) or refuses them with an
    exception (a keyword that its signature does not have, a keyword that
    names its positional parameter again, a process group that is not
    initialized, ...). *)
Class DDPConstructor (LightningModule T : Type) : Type :=
  ddp_refuses :
    LightningModule -> list Z -> gmap string Py.value -> T -> option Py.exn.

(** ** The plugin object *)

Record DDPPlugin : Type := { _ddp_kwargs : gmap string Py.value }.

(** The constructor: the keyword arguments of the call, collected into a
    fresh dictionary, become [self._ddp_kwargs]. *)
Definition __init__ (kwargs : gmap string Py.value) : DDPPlugin :=
  {| _ddp_kwargs := kwargs |}.

(** ** Outward calls, in the order they happen *)

Inductive Event : Type :=
| EnvironSet (key val : string)
| LogInfo (msg : string)
| InitProcessGroup (backend : string) (rank world_size : Z).

Global Instance Event_eq_dec : EqDecision Event.
Proof. solve_decision. Defined.

Definition is_InitProcessGroup (e : Event) : bool :=
  match e with InitProcessGroup _ _ _ => true | _ => false end.

Definition is_EnvironSet (e : Event) : bool :=
  match e with EnvironSet _ _ => true | _ => false end.

(** The calls of [init_process_group] in a log. *)
Definition init_calls (evs : list Event) : list Event :=
  List.filter is_InitProcessGroup evs.

(** The assignments to [os.environ] in a log. *)
Definition environ_sets (evs : list Event) : list Event :=
  List.filter is_EnvironSet evs.

(** The message of the [log.info] call, an f-string over the two integer
    arguments. *)
Definition initializing_ddp (global_rank world_size : Z) : string :=
  "initializing ddp: GLOBAL_RANK: " +:+ pretty global_rank
  +:+ ", MEMBER: " +:+ pretty (global_rank + 1)%Z
  +:+ "/" +:+ pretty world_size.

Section Plugin.

Context {LightningModule : Type}.
Context {T : Type} `{!TorchDistrib T} `{!DDPConstructor LightningModule T}.

(** Modelled from the spec: [LightningDistributedDataParallel] is
    defined in [pytorch_lightning.overrides.data_parallel], which is not
    part of this file; the spec calls it the "underlying
    distributed-training wrapper type" to which configuration is
    forwarded.  A wrapper is represented by what its constructor
    received: the positional module, the [device_ids] keyword and the
    remaining keyword arguments.  Whether the constructor accepts them is
    [ddp_refuses]. *)
Record LightningDistributedDataParallel : Type :=
  { module : LightningModule;
    device_ids : list Z;
    kwargs : gmap string Py.value }.

(** Everything a method can read or write. *)
Record State : Type :=
  { self : DDPPlugin;
    os_environ : gmap string string;
    torch_distrib : T;
    log : list Event }.

(** A method body: it runs from a state and ends in a state, with a
    result or a raised exception.  What was written before an exception
    stays written. *)
Definition M (A : Type) : Type := State -> (Py.exn + A) * State.

Global Instance M_ret : MRet M := fun A a s => (inr a, s).

Global Instance M_bind : MBind M := fun A B f m s =>
  match m s with
  | (inl e, s') => (inl e, s')
  | (inr a, s') => f a s'
  end.

Definition raise {A} (e : Py.exn) : M A := fun s => (inl e, s).

(** The events a body appends when run from [s]. *)
Definition emitted {A} (m : M A) (s : State) : list Event :=
  drop (length (log s)) (log (m s).2).

Definition emit (e : Event) (s : State) : State :=
  {| self := self s; os_environ := os_environ s;
     torch_distrib := torch_distrib s; log := log s ++ [e] |}.

(** [self._ddp_kwargs] *)
Definition get_ddp_kwargs : M (gmap string Py.value) :=
  fun s => (inr (_ddp_kwargs (self s)), s).

(** [self._ddp_kwargs[key] = v]: the stored dictionary is updated in
    place. *)
Definition ddp_kwargs_setitem (key : string) (v : Py.value) : M unit :=
  fun s => (inr tt,
            {| self := {| _ddp_kwargs := <[key := v]> (_ddp_kwargs (self s)) |};
               os_environ := os_environ s;
               torch_distrib := torch_distrib s; log := log s |}).

(** [os.environ[key] = val] *)
Definition environ_setitem (key val : string) : M unit :=
  fun s => (inr tt,
            emit (EnvironSet key val)
                 {| self := self s; os_environ := <[key := val]> (os_environ s);
                    torch_distrib := torch_distrib s; log := log s |}).

(** [log.info(msg)] *)
Definition log_info (msg : string) : M unit :=
  fun s => (inr tt, emit (LogInfo msg) s).

(** [torch_distrib.is_initialized()] *)
Definition torch_distrib_is_initialized : M bool :=
  fun s => (inr (is_initialized (torch_distrib s)), s).

(** [torch_distrib.init_process_group(backend, rank=rank, world_size=world_size)] *)
Definition torch_distrib_init_process_group
    (backend : string) (rank world_size : Z) : M unit :=
  fun s => (inr tt,
            emit (InitProcessGroup backend rank world_size)
                 {| self := self s; os_environ := os_environ s;
                    torch_distrib :=
                      init_process_group backend rank world_size (torch_distrib s);
                    log := log s |}).

(** The state of [torch.distributed], as the constructor finds it. *)
Definition get_torch_distrib : M T :=
  fun s => (inr (torch_distrib s), s).

(** [LightningDistributedDataParallel(model, device_ids=device_ids, **kw)]:
    the explicit keyword and the unpacked dictionary are merged first,
    and a dictionary that has [device_ids] itself makes the call a
    [TypeError] before the constructor is entered.  Otherwise the
    constructor runs: it refuses with its own exception, or the wrapper
    is built. *)
Definition new_LightningDistributedDataParallel
    (model : LightningModule) (device_ids : list Z)
    (kw : gmap string Py.value) : M LightningDistributedDataParallel :=
  match kw !! "device_ids" with
  | Some _ => raise (Py.TypeError_multiple_values "device_ids")
  | None =>
      t ← get_torch_distrib;
      match ddp_refuses model device_ids kw t with
      | Some e => raise e
      | None => mret {| module := model; device_ids := device_ids; kwargs := kw |}
      end
  end.

(** ** The methods of [DDPPlugin] *)

Definition configure_ddp (model : LightningModule) (device_ids : list Z)
  : M LightningDistributedDataParallel :=
  (* if unset, default `find_unused_parameters` `True` *)
  kw ← get_ddp_kwargs;
  ddp_kwargs_setitem "find_unused_parameters"
    (Py.get kw "find_unused_parameters" (Py.Bool true)) ;;
  kw ← get_ddp_kwargs;
  model ← new_LightningDistributedDataParallel model device_ids kw;
  mret model.

Definition init_ddp_connection
    (trainer : Trainer) (cluster_environment : ClusterEnvironment.t)
    (global_rank world_size : Z) (is_slurm_managing_tasks : bool) : M unit :=
  environ_setitem "MASTER_ADDR"
    (Py.str (ClusterEnvironment.master_address cluster_environment)) ;;
  environ_setitem "MASTER_PORT"
    (Py.str (ClusterEnvironment.master_port cluster_environment)) ;;
  environ_setitem "WORLD_SIZE"
    (Py.str (ClusterEnvironment.world_size cluster_environment)) ;;
  let torch_backend := if on_gpu trainer then "nccl" else "gloo" in
  initialized ← torch_distrib_is_initialized;
  if negb initialized then
    log_info (initializing_ddp global_rank world_size) ;;
    torch_distrib_init_process_group torch_backend global_rank world_size
  else
    mret tt.

Definition on_before_forward {A} (model : LightningModule) (args : list A)
  : M (list A) :=
  mret args.

Definition optimizer_state {O D} `{!Optimizer O D} (optimizer : O) : M D :=
  mret (state_dict optimizer).

End Plugin.

Arguments State : clear implicits.
Arguments M : clear implicits.
Arguments LightningDistributedDataParallel : clear implicits.

(** ** A small concrete world, for running the methods *)

(** The library state reduced to the bit the guard reads. *)
Global Instance flag_TorchDistrib : TorchDistrib bool :=
  {| is_initialized t := t;
     init_process_group _ _ _ _ := true;
     init_process_group_initialized _ _ _ _ := eq_refl |}.

(** The keyword parameters of torch's [DistributedDataParallel] besides
    [module] and [device_ids], as of torch 1.6 (later releases add
    more). *)
Definition ddp_keywords : list string :=
  [ "output_device"; "dim"; "broadcast_buffers"; "process_group";
    "bucket_cap_mb"; "find_unused_parameters"; "check_reduction" ].

(** A constructor with that signature, for running [configure_ddp]: a
    [module] keyword clashes with the positional module, a keyword
    outside the signature is unexpected, and the process group has to be
    initialized.  (Of several offending keywords Python reports the first
    in the order of the dictionary, which the map does not keep; the
    examples below have one at most.) *)
Global Instance signature_DDPConstructor {LightningModule : Type}
  : DDPConstructor LightningModule bool :=
  fun _ _ kw initialized =>
    match kw !! "module" with
    | Some _ => Some (Py.TypeError_multiple_values "module")
    | None =>
        match filter (fun k => k ∉ ddp_keywords) (elements (dom kw)) with
        | k :: _ => Some (Py.TypeError_unexpected_keyword k)
        | [] =>
            if initialized then None
            else Some (Py.LibraryError "Default process group is not initialized")
        end
    end.

(** A process that holds a plugin built from [kwargs], with the given
    environment and process-group bit and an empty log. *)
Definition process (kwargs : gmap string Py.value)
    (env : gmap string string) (initialized : bool) : State bool :=
  {| self := __init__ kwargs; os_environ := env;
     torch_distrib := initialized; log := [] |}.

Definition a_cluster : ClusterEnvironment.t :=
  {| ClusterEnvironment.master_address := Py.Str "10.0.0.1";
     ClusterEnvironment.master_port := Py.Int 12910;
     ClusterEnvironment.world_size := Py.Int 2 |}.

Definition gpu_trainer : Trainer := {| on_gpu := true |}.
Definition cpu_trainer : Trainer := {| on_gpu := false |}.

(** An environment left behind by an earlier job. *)
Definition stale_environ : gmap string string :=
  {[ "MASTER_ADDR" := "127.0.0.1"; "MASTER_PORT" := "29500";
     "WORLD_SIZE" := "8"; "HOME" := "/root" ]}.

(** [DDPPlugin(bucket_cap_mb=25)] *)
Definition tuned_kwargs : gmap string Py.value :=
  {[ "bucket_cap_mb" := Py.Int 25 ]}.

(** [DDPPlugin(find_unused_parameters=False)] *)
Definition strict_kwargs : gmap string Py.value :=
  {[ "find_unused_parameters" := Py.Bool false ]}.

(** [DDPPlugin(device_ids=0)] *)
Definition clashing_kwargs : gmap string Py.value :=
  {[ "device_ids" := Py.Int 0 ]}.

(** [DDPPlugin(module=None)] *)
Definition module_kwargs : gmap string Py.value :=
  {[ "module" := Py.None_ ]}.

(** [DDPPlugin(foo=1)] *)
Definition foo_kwargs : gmap string Py.value :=
  {[ "foo" := Py.Int 1 ]}.

Section Properties.

Context {LightningModule : Type}.
Context {T : Type} `{!TorchDistrib T} `{!DDPConstructor LightningModule T}.

Implicit Types (s : State T) (trainer : Trainer) (ce : ClusterEnvironment.t).
Implicit Types (global_rank world_size : Z) (slurm : bool).

(** *** Symbolic runs *)

(** Unfolds the monad and the primitive operations of a method body. *)
Ltac run_body :=
  repeat (progress (
    unfold mbind, M_bind, mret, M_ret, raise,
      get_ddp_kwargs, ddp_kwargs_setitem, environ_setitem, log_info,
      torch_distrib_is_initialized, torch_distrib_init_process_group,
      get_torch_distrib, new_LightningDistributedDataParallel, emit,
      initializing_ddp;
    cbn [fst snd negb self os_environ torch_distrib log _ddp_kwargs])).

(** What one call of [init_ddp_connection] does to the state, in closed
    form. *)
Lemma init_ddp_connection_run trainer ce global_rank world_size slurm s :
  init_ddp_connection trainer ce global_rank world_size slurm s =
  (inr tt,
   {| self := self s;
      os_environ :=
        <["WORLD_SIZE" := Py.str (ClusterEnvironment.world_size ce)]>
          (<["MASTER_PORT" := Py.str (ClusterEnvironment.master_port ce)]>
             (<["MASTER_ADDR" := Py.str (ClusterEnvironment.master_address ce)]>
                (os_environ s)));
      torch_distrib :=
        if is_initialized (torch_distrib s) then torch_distrib s
        else init_process_group (if on_gpu trainer then "nccl" else "gloo")
                                global_rank world_size (torch_distrib s);
      log :=
        log s ++
        [ EnvironSet "MASTER_ADDR" (Py.str (ClusterEnvironment.master_address ce));
          EnvironSet "MASTER_PORT" (Py.str (ClusterEnvironment.master_port ce));
          EnvironSet "WORLD_SIZE" (Py.str (ClusterEnvironment.world_size ce)) ] ++
        (if is_initialized (torch_distrib s) then []
         else [ LogInfo (initializing_ddp global_rank world_size);
                InitProcessGroup (if on_gpu trainer then "nccl" else "gloo")
                                 global_rank world_size ]) |}).
Proof.
  unfold init_ddp_connection. run_body.
  destruct (is_initialized (torch_distrib s)); run_body;
    rewrite <- ?app_assoc; reflexivity.
Qed.

Lemma emitted_init_ddp_connection trainer ce global_rank world_size slurm s :
  emitted (init_ddp_connection trainer ce global_rank world_size slurm) s =
  [ EnvironSet "MASTER_ADDR" (Py.str (ClusterEnvironment.master_address ce));
    EnvironSet "MASTER_PORT" (Py.str (ClusterEnvironment.master_port ce));
    EnvironSet "WORLD_SIZE" (Py.str (ClusterEnvironment.world_size ce)) ] ++
  (if is_initialized (torch_distrib s) then []
   else [ LogInfo (initializing_ddp global_rank world_size);
          InitProcessGroup (if on_gpu trainer then "nccl" else "gloo")
                           global_rank world_size ]).
Proof.
  unfold emitted. rewrite init_ddp_connection_run. cbn [snd log].
  apply drop_app_length.
Qed.

(** What one call of [configure_ddp] does: the entry is written first, the
    constructor call comes second; it fails at the call when the
    dictionary has a [device_ids] key of its own, and in the constructor
    when that refuses. *)
Lemma configure_ddp_run (model : LightningModule) (ids : list Z) s :
  configure_ddp model ids s =
  let kw := <["find_unused_parameters" :=
                Py.get (_ddp_kwargs (self s)) "find_unused_parameters" (Py.Bool true)]>
              (_ddp_kwargs (self s)) in
  (match _ddp_kwargs (self s) !! "device_ids" with
   | Some _ => inl (Py.TypeError_multiple_values "device_ids")
   | None =>
       match ddp_refuses model ids kw (torch_distrib s) with
       | Some e => inl e
       | None => inr {| module := model; device_ids := ids; kwargs := kw |}
       end
   end,
   {| self := {| _ddp_kwargs := kw |}; os_environ := os_environ s;
      torch_distrib := torch_distrib s; log := log s |}).
Proof.
  unfold configure_ddp. run_body.
  rewrite lookup_insert_ne by discriminate.
  destruct (_ddp_kwargs (self s) !! "device_ids"); [ reflexivity |].
  run_body. destruct (ddp_refuses _ _ _ _); reflexivity.
Qed.

(** *** init_ddp_connection *)

(** C1 (as amended).  A call of [init_ddp_connection] calls
    [init_process_group] exactly once when the process group is not yet
    initialized, and not at all when it already is: the call sits behind
    the [is_initialized] guard. *)
Theorem init_ddp_connection_init_calls trainer ce global_rank world_size slurm s :
  length (init_calls
            (emitted (init_ddp_connection trainer ce global_rank world_size slurm) s)) =
  if is_initialized (torch_distrib s) then 0 else 1.
Proof.
  rewrite emitted_init_ddp_connection.
  destruct (is_initialized (torch_distrib s)); reflexivity.
Qed.

(** C3.  A call assigns exactly three entries of [os.environ], in this
    order: MASTER_ADDR, MASTER_PORT and WORLD_SIZE, each to [str] of the
    matching method of the cluster environment; afterwards the three
    entries read back those strings, and the environment without these
    three keys is what it was before the call. *)
Theorem init_ddp_connection_environ trainer ce global_rank world_size slurm s :
  let run := init_ddp_connection trainer ce global_rank world_size slurm in
  environ_sets (emitted run s) =
    [ EnvironSet "MASTER_ADDR" (Py.str (ClusterEnvironment.master_address ce));
      EnvironSet "MASTER_PORT" (Py.str (ClusterEnvironment.master_port ce));
      EnvironSet "WORLD_SIZE" (Py.str (ClusterEnvironment.world_size ce)) ]
  /\ os_environ (run s).2 !! "MASTER_ADDR"
     = Some (Py.str (ClusterEnvironment.master_address ce))
  /\ os_environ (run s).2 !! "MASTER_PORT"
     = Some (Py.str (ClusterEnvironment.master_port ce))
  /\ os_environ (run s).2 !! "WORLD_SIZE"
     = Some (Py.str (ClusterEnvironment.world_size ce))
  /\ delete "MASTER_ADDR" (delete "MASTER_PORT" (delete "WORLD_SIZE"
       (os_environ (run s).2)))
     = delete "MASTER_ADDR" (delete "MASTER_PORT" (delete "WORLD_SIZE"
       (os_environ s))).
Proof.
  intros run. subst run.
  rewrite emitted_init_ddp_connection, init_ddp_connection_run. cbn [snd os_environ].
  split; [ destruct (is_initialized (torch_distrib s)); reflexivity |].
  split_and!.
  - rewrite !lookup_insert_ne by discriminate. apply lookup_insert_eq.
  - rewrite lookup_insert_ne by discriminate. apply lookup_insert_eq.
  - apply lookup_insert_eq.
  - apply map_eq; intros k.
    destruct (decide (k = "MASTER_ADDR")) as [->|];
      [ by rewrite !lookup_delete_eq |].
    destruct (decide (k = "MASTER_PORT")) as [->|];
      [ by rewrite !(lookup_delete_ne _ "MASTER_ADDR"), !lookup_delete_eq |].
    destruct (decide (k = "WORLD_SIZE")) as [->|];
      [ by rewrite !(lookup_delete_ne _ "MASTER_ADDR"),
                   !(lookup_delete_ne _ "MASTER_PORT"), !lookup_delete_eq |].
    by rewrite !lookup_delete_ne, !lookup_insert_ne.
Qed.

(** C4.  Every call of [init_process_group] that [init_ddp_connection]
    makes passes the backend "nccl" when [trainer.on_gpu] holds and "gloo"
    otherwise, [rank] equal to the [global_rank] argument and [world_size]
    equal to the [world_size] argument. *)
Theorem init_ddp_connection_call_arguments
    trainer ce global_rank world_size slurm s (backend : string) (rank ws : Z) :
  InitProcessGroup backend rank ws
    ∈ emitted (init_ddp_connection trainer ce global_rank world_size slurm) s ->
  backend = (if on_gpu trainer then "nccl" else "gloo")
  /\ rank = global_rank
  /\ ws = world_size.
Proof.
  rewrite emitted_init_ddp_connection.
  destruct (is_initialized (torch_distrib s)); cbn; intros Hin;
    repeat (apply elem_of_cons in Hin as [Heq|Hin]; [ try discriminate Heq |]);
    try (by apply elem_of_nil in Hin).
  by simplify_eq.
Qed.

(** C7.  In the events of one call, whatever comes before a call of
    [init_process_group] contains the three assignments to MASTER_ADDR,
    MASTER_PORT and WORLD_SIZE, and whatever comes before an assignment to
    [os.environ] contains no call of [init_process_group]. *)
Theorem init_ddp_connection_environ_before_init
    trainer ce global_rank world_size slurm s :
  let evs := emitted (init_ddp_connection trainer ce global_rank world_size slurm) s in
  (forall pre post backend rank ws,
      evs = pre ++ InitProcessGroup backend rank ws :: post ->
      EnvironSet "MASTER_ADDR" (Py.str (ClusterEnvironment.master_address ce)) ∈ pre
      /\ EnvironSet "MASTER_PORT" (Py.str (ClusterEnvironment.master_port ce)) ∈ pre
      /\ EnvironSet "WORLD_SIZE" (Py.str (ClusterEnvironment.world_size ce)) ∈ pre)
  /\ (forall pre post key val,
      evs = pre ++ EnvironSet key val :: post ->
      init_calls pre = []).
Proof.
  intros evs. subst evs. rewrite emitted_init_ddp_connection.
  destruct (is_initialized (torch_distrib s)); cbn; split;
    intros pre post; intros;
    do 6 (try (destruct pre as [|? pre]; simplify_eq/=; try done)).
  repeat constructor.
Qed.

(** C9.  When the process group is already initialized, a call still
    writes MASTER_ADDR, MASTER_PORT and WORLD_SIZE from the cluster
    environment, whatever they held before, and makes no call of
    [init_process_group]. *)
Theorem init_ddp_connection_environ_unconditional
    trainer ce global_rank world_size slurm s :
  is_initialized (torch_distrib s) = true ->
  let run := init_ddp_connection trainer ce global_rank world_size slurm in
  init_calls (emitted run s) = []
  /\ environ_sets (emitted run s) =
       [ EnvironSet "MASTER_ADDR" (Py.str (ClusterEnvironment.master_address ce));
         EnvironSet "MASTER_PORT" (Py.str (ClusterEnvironment.master_port ce));
         EnvironSet "WORLD_SIZE" (Py.str (ClusterEnvironment.world_size ce)) ]
  /\ os_environ (run s).2 !! "MASTER_ADDR"
     = Some (Py.str (ClusterEnvironment.master_address ce))
  /\ os_environ (run s).2 !! "MASTER_PORT"
     = Some (Py.str (ClusterEnvironment.master_port ce))
  /\ os_environ (run s).2 !! "WORLD_SIZE"
     = Some (Py.str (ClusterEnvironment.world_size ce)).
Proof.
  intros Hinit run. subst run.
  rewrite emitted_init_ddp_connection, init_ddp_connection_run, Hinit.
  cbn [snd os_environ]. split_and!.
  - reflexivity.
  - reflexivity.
  - rewrite !lookup_insert_ne by discriminate. apply lookup_insert_eq.
  - rewrite lookup_insert_ne by discriminate. apply lookup_insert_eq.
  - apply lookup_insert_eq.
Qed.

(** C10.  Two calls that differ only in [is_slurm_managing_tasks] have the
    same outcome: the same result, the same final state (environment,
    process group, plugin) and the same events, so the same assignments
    and the same calls of [init_process_group] with the same arguments. *)
Theorem init_ddp_connection_ignores_slurm
    trainer ce global_rank world_size (slurm1 slurm2 : bool) s :
  init_ddp_connection trainer ce global_rank world_size slurm1 s
  = init_ddp_connection trainer ce global_rank world_size slurm2 s
  /\ environ_sets (emitted (init_ddp_connection trainer ce global_rank world_size slurm1) s)
     = environ_sets (emitted (init_ddp_connection trainer ce global_rank world_size slurm2) s)
  /\ init_calls (emitted (init_ddp_connection trainer ce global_rank world_size slurm1) s)
     = init_calls (emitted (init_ddp_connection trainer ce global_rank world_size slurm2) s).
Proof.
  rewrite !emitted_init_ddp_connection, !init_ddp_connection_run. done.
Qed.

(** A second call in a row finds the group initialized and does not
    initialize it again. *)
Lemma init_ddp_connection_twice trainer ce global_rank world_size slurm
    trainer' ce' global_rank' world_size' slurm' s :
  let s1 := (init_ddp_connection trainer ce global_rank world_size slurm s).2 in
  init_calls (emitted (init_ddp_connection trainer' ce' global_rank' world_size' slurm') s1)
  = [].
Proof.
  intros s1. rewrite emitted_init_ddp_connection.
  assert (is_initialized (torch_distrib s1) = true) as ->; [| reflexivity ].
  subst s1. rewrite init_ddp_connection_run. cbn [snd torch_distrib].
  destruct (is_initialized (torch_distrib s)) eqn:Hs;
    [ exact Hs | apply init_process_group_initialized ].
Qed.

(** *** The two hooks *)

(** C5.  [on_before_forward] returns its positional arguments as they
    are, for every model, and touches nothing. *)
Theorem on_before_forward_passthrough {A} (model : LightningModule) (args : list A) s :
  on_before_forward model args s = (inr args, s).
Proof. reflexivity. Qed.

(** C6.  [optimizer_state] returns the value of [optimizer.state_dict()]
    as it is, and touches nothing. *)
Theorem optimizer_state_is_state_dict {O D} `{!Optimizer O D} (optimizer : O) s :
  optimizer_state optimizer s = (inr (state_dict optimizer), s).
Proof. reflexivity. Qed.

(** *** configure_ddp *)

(** C2 (as amended).  For every keyword-argument dictionary given to the
    constructor of [DDPPlugin], every model and every [device_ids] list:
    every wrapper that [configure_ddp] returns received the model, the
    [device_ids] and every stored keyword argument (besides these the
    [find_unused_parameters] entry and nothing else); that wrapper is
    returned whenever the dictionary has no [device_ids] key and the
    [LightningDistributedDataParallel] constructor accepts the arguments.
    Otherwise no wrapper is returned: with a [device_ids] key in the
    dictionary the call is a [TypeError], and when the constructor
    refuses, its exception is what [configure_ddp] raises. *)
Theorem configure_ddp_forwards
    (kw : gmap string Py.value) (model : LightningModule) (ids : list Z) s :
  self s = __init__ kw ->
  let forwarded :=
    <["find_unused_parameters" :=
        Py.get kw "find_unused_parameters" (Py.Bool true)]> kw in
  (forall w : LightningDistributedDataParallel LightningModule,
      (configure_ddp model ids s).1 = inr w ->
      module w = model
      /\ device_ids w = ids
      /\ (forall k v, kw !! k = Some v -> kwargs w !! k = Some v)
      /\ dom (kwargs w) = dom kw ∪ {["find_unused_parameters"]})
  /\ (kw !! "device_ids" = None ->
      ddp_refuses model ids forwarded (torch_distrib s) = None ->
      (configure_ddp model ids s).1
      = inr {| module := model; device_ids := ids; kwargs := forwarded |})
  /\ (is_Some (kw !! "device_ids") ->
      (configure_ddp model ids s).1
      = inl (Py.TypeError_multiple_values "device_ids"))
  /\ (forall e, kw !! "device_ids" = None ->
      ddp_refuses model ids forwarded (torch_distrib s) = Some e ->
      (configure_ddp model ids s).1 = inl e).
Proof.
  intros Hself forwarded. subst forwarded.
  rewrite configure_ddp_run, Hself. cbn [__init__ _ddp_kwargs fst].
  split_and!.
  - intros w Hw.
    destruct (kw !! "device_ids"); [ discriminate Hw |].
    destruct (ddp_refuses _ _ _ _); [ discriminate Hw |].
    injection Hw as <-. cbn [module device_ids kwargs]. split_and!.
    + reflexivity.
    + reflexivity.
    + intros k v Hk. unfold Py.get.
      destruct (decide (k = "find_unused_parameters")) as [->|Hne].
      * rewrite lookup_insert_eq, Hk. reflexivity.
      * rewrite lookup_insert_ne by done. exact Hk.
    + rewrite dom_insert_L. apply (comm_L (∪)).
  - intros -> ->. reflexivity.
  - intros [v ->]. reflexivity.
  - intros e -> ->. reflexivity.
Qed.

(** C8.  When the constructor's keyword arguments have no
    [find_unused_parameters], the wrapper that [configure_ddp] builds
    receives [find_unused_parameters=True]; when they have it, the wrapper
    receives the given value.  Either way the stored dictionary has the
    entry after the call, and differs from the constructor's dictionary by
    that entry at most.  (The last clause is what makes the clauses on the
    wrapper non-empty: a wrapper is built whenever the dictionary has no
    [device_ids] of its own and the wrapper's constructor accepts what is
    stored.) *)
Theorem configure_ddp_find_unused_parameters
    (kw : gmap string Py.value) (model : LightningModule) (ids : list Z) s :
  self s = __init__ kw ->
  let r := configure_ddp model ids s in
  (forall w, r.1 = inr w -> kw !! "find_unused_parameters" = None ->
             kwargs w !! "find_unused_parameters" = Some (Py.Bool true))
  /\ (forall w v, r.1 = inr w -> kw !! "find_unused_parameters" = Some v ->
                  kwargs w !! "find_unused_parameters" = Some v)
  /\ is_Some (_ddp_kwargs (self r.2) !! "find_unused_parameters")
  /\ _ddp_kwargs (self r.2)
     = <["find_unused_parameters" :=
           match kw !! "find_unused_parameters" with
           | Some v => v
           | None => Py.Bool true
           end]> kw
  /\ (kw !! "device_ids" = None ->
      ddp_refuses model ids (_ddp_kwargs (self r.2)) (torch_distrib s) = None ->
      exists w, r.1 = inr w).
Proof.
  intros Hself r. subst r. rewrite configure_ddp_run, Hself.
  cbn [__init__ _ddp_kwargs fst snd self]. unfold Py.get.
  split_and!.
  - intros w Hw Hnone. destruct (kw !! "device_ids"); [ discriminate Hw |].
    destruct (ddp_refuses _ _ _ _); [ discriminate Hw |].
    injection Hw as <-. cbn [kwargs]. rewrite lookup_insert_eq, Hnone. reflexivity.
  - intros w v Hw Hsome. destruct (kw !! "device_ids"); [ discriminate Hw |].
    destruct (ddp_refuses _ _ _ _); [ discriminate Hw |].
    injection Hw as <-. cbn [kwargs]. rewrite lookup_insert_eq, Hsome. reflexivity.
  - rewrite lookup_insert_eq. eauto.
  - destruct (kw !! "find_unused_parameters"); reflexivity.
  - intros -> ->. eauto.
Qed.

(** *** Error path, repetition and composition *)

(** X1.  [configure_ddp] returns a wrapper exactly when the stored
    dictionary has no [device_ids] key and the wrapper's constructor
    accepts the arguments.  With a [device_ids] key it raises the
    [TypeError] of the call, whatever the constructor would have said,
    and the exception of a refusing constructor comes out as it is.  The
    [find_unused_parameters] entry was written before the call, so it is
    stored on every path, and a clashing [device_ids] entry stays. *)
Theorem configure_ddp_raises_iff (model : LightningModule) (ids : list Z) s :
  let forwarded :=
    <["find_unused_parameters" :=
        Py.get (_ddp_kwargs (self s)) "find_unused_parameters" (Py.Bool true)]>
      (_ddp_kwargs (self s)) in
  (is_Some (_ddp_kwargs (self s) !! "device_ids") ->
   (configure_ddp model ids s).1
   = inl (Py.TypeError_multiple_values "device_ids"))
  /\ ((exists w, (configure_ddp model ids s).1 = inr w)
      <-> _ddp_kwargs (self s) !! "device_ids" = None
          /\ ddp_refuses model ids forwarded (torch_distrib s) = None)
  /\ (forall e, _ddp_kwargs (self s) !! "device_ids" = None ->
      ddp_refuses model ids forwarded (torch_distrib s) = Some e ->
      (configure_ddp model ids s).1 = inl e)
  /\ _ddp_kwargs (self (configure_ddp model ids s).2) !! "find_unused_parameters"
     = Some (Py.get (_ddp_kwargs (self s)) "find_unused_parameters" (Py.Bool true))
  /\ _ddp_kwargs (self (configure_ddp model ids s).2) !! "device_ids"
     = _ddp_kwargs (self s) !! "device_ids".
Proof.
  intros forwarded. subst forwarded.
  rewrite configure_ddp_run. cbn [fst snd self _ddp_kwargs]. split_and!.
  - intros [v ->]. reflexivity.
  - destruct (_ddp_kwargs (self s) !! "device_ids") as [v|].
    + split; [ intros [w Hw]; discriminate Hw | intros [Hv _]; discriminate Hv ].
    + destruct (ddp_refuses _ _ _ _) as [e|].
      * split; [ intros [w Hw]; discriminate Hw | intros [_ He]; discriminate He ].
      * split; eauto.
  - intros e -> ->. reflexivity.
  - apply lookup_insert_eq.
  - apply lookup_insert_ne. discriminate.
Qed.


(** X3.  The environment after two calls in a row is the environment
    after the second call alone: the later cluster environment wins on
    all three entries, and nothing of the earlier one is left. *)
Theorem init_ddp_connection_environ_last_wins
    trainer ce global_rank world_size slurm
    trainer' ce' global_rank' world_size' slurm' s :
  os_environ
    (init_ddp_connection trainer' ce' global_rank' world_size' slurm'
       (init_ddp_connection trainer ce global_rank world_size slurm s).2).2
  = os_environ (init_ddp_connection trainer' ce' global_rank' world_size' slurm' s).2.
Proof.
  rewrite !init_ddp_connection_run. cbn [snd os_environ].
  apply map_eq; intros k.
  destruct (decide (k = "WORLD_SIZE")) as [->|];
    [ by rewrite !lookup_insert_eq |].
  rewrite !(lookup_insert_ne _ "WORLD_SIZE") by done.
  destruct (decide (k = "MASTER_PORT")) as [->|];
    [ by rewrite !lookup_insert_eq |].
  rewrite !(lookup_insert_ne _ "MASTER_PORT") by done.
  destruct (decide (k = "MASTER_ADDR")) as [->|];
    [ by rewrite !lookup_insert_eq |].
  rewrite !(lookup_insert_ne _ "MASTER_ADDR") by done.
  rewrite !lookup_insert_ne by done. reflexivity.
Qed.

(** X4.  After a call the process group is initialized, whatever it was
    before (given that the library answers [True] once
    [init_process_group] has run). *)
Theorem init_ddp_connection_leaves_initialized
    trainer ce global_rank world_size slurm s :
  is_initialized
    (torch_distrib (init_ddp_connection trainer ce global_rank world_size slurm s).2)
  = true.
Proof.
  rewrite init_ddp_connection_run. cbn [snd torch_distrib].
  destruct (is_initialized (torch_distrib s)) eqn:Hs;
    [ exact Hs | apply init_process_group_initialized ].
Qed.

(** X5.  Two calls run one after the other initialize at most once, and
    with the arguments of the first: the calls of [init_process_group]
    and the library state after the pair are those of the first call
    alone, so the backend, rank and world size of the second call are
    never used.  (Same library assumption as for X4.) *)
Theorem init_ddp_connection_first_call_wins
    trainer ce global_rank world_size slurm
    trainer' ce' global_rank' world_size' slurm' s :
  let first := init_ddp_connection trainer ce global_rank world_size slurm in
  let second := init_ddp_connection trainer' ce' global_rank' world_size' slurm' in
  init_calls (emitted (first ;; second) s) = init_calls (emitted first s)
  /\ torch_distrib ((first ;; second) s).2 = torch_distrib (first s).2.
Proof.
  intros first second.
  assert (is_initialized (torch_distrib (first s).2) = true) as Hinit.
  { subst first. rewrite init_ddp_connection_run. cbn [snd torch_distrib].
    destruct (is_initialized (torch_distrib s)) eqn:Hs;
      [ exact Hs | apply init_process_group_initialized ]. }
  assert ((first ;; second) s = second (first s).2) as Hseq.
  { unfold mbind, M_bind. subst first.
    rewrite init_ddp_connection_run. reflexivity. }
  assert (log (second (first s).2).2
          = log s ++ emitted first s ++ emitted second (first s).2) as Hlog.
  { subst first second.
    rewrite !emitted_init_ddp_connection, !init_ddp_connection_run.
    cbn [snd log torch_distrib]. rewrite <- !app_assoc. reflexivity. }
  split.
  - unfold emitted at 1. rewrite Hseq, Hlog, drop_app_length.
    unfold init_calls. rewrite List.filter_app.
    subst second. rewrite (emitted_init_ddp_connection trainer'), Hinit.
    cbn. apply app_nil_r.
  - rewrite Hseq. subst second. rewrite (init_ddp_connection_run trainer').
    cbn [snd torch_distrib]. rewrite Hinit. reflexivity.
Qed.



(** X8.  The log line goes with the initialization and nothing else: a
    call of [init_process_group] is the last event of
    [init_ddp_connection] and comes right after the "initializing ddp"
    line for its rank and world size, and a [log.info] happens only when
    the group was not initialized. *)
Theorem init_ddp_connection_log_line
    trainer ce global_rank world_size slurm s :
  let evs := emitted (init_ddp_connection trainer ce global_rank world_size slurm) s in
  (forall pre post backend rank ws,
      evs = pre ++ InitProcessGroup backend rank ws :: post ->
      post = []
      /\ exists pre', pre = pre' ++ [LogInfo (initializing_ddp global_rank world_size)])
  /\ (forall msg,
      LogInfo msg ∈ evs ->
      is_initialized (torch_distrib s) = false
      /\ msg = initializing_ddp global_rank world_size).
Proof.
  intros evs. subst evs. rewrite emitted_init_ddp_connection.
  destruct (is_initialized (torch_distrib s)); cbn; split.
  - intros pre post; intros.
    do 4 (try (destruct pre as [|? pre]; simplify_eq/=; try done)).
  - intros msg Hin.
    repeat (apply elem_of_cons in Hin as [Heq|Hin]; [ try discriminate Heq |]).
    by apply elem_of_nil in Hin.
  - intros pre post; intros.
    do 6 (try (destruct pre as [|? pre]; simplify_eq/=; try done)).
    split; [ reflexivity |].
    by exists [ EnvironSet "MASTER_ADDR" (Py.str (ClusterEnvironment.master_address ce));
                EnvironSet "MASTER_PORT" (Py.str (ClusterEnvironment.master_port ce));
                EnvironSet "WORLD_SIZE" (Py.str (ClusterEnvironment.world_size ce)) ].
  - intros msg Hin.
    repeat (apply elem_of_cons in Hin as [Heq|Hin]; [ try discriminate Heq |]);
      try (by apply elem_of_nil in Hin).
    by simplify_eq.
Qed.

End Properties.

(** ** The methods on concrete inputs *)

(** One call from a fresh process on a GPU trainer: three assignments, the
    log line, one [init_process_group]. *)
Example init_ddp_connection_fresh :
  emitted (init_ddp_connection gpu_trainer a_cluster 0 2 true) (process ∅ ∅ false)
  = [ EnvironSet "MASTER_ADDR" "10.0.0.1";
      EnvironSet "MASTER_PORT" "12910";
      EnvironSet "WORLD_SIZE" "2";
      LogInfo "initializing ddp: GLOBAL_RANK: 0, MEMBER: 1/2";
      InitProcessGroup "nccl" 0 2 ].
Proof. vm_compute. reflexivity. Qed.

(** C1, the claim as stated fails: with the process group already
    initialized, a call of [init_ddp_connection] makes no call of
    [init_process_group], not one. *)
Lemma init_ddp_connection_initialized_makes_no_call :
  is_initialized (torch_distrib (process ∅ ∅ true)) = true
  /\ length (init_calls
       (emitted (init_ddp_connection gpu_trainer a_cluster 0 2 true)
                (process ∅ ∅ true))) = 0
  /\ length (init_calls
       (emitted (init_ddp_connection gpu_trainer a_cluster 0 2 true)
                (process ∅ ∅ true))) <> 1.
Proof. vm_compute. split_and!; [ reflexivity | reflexivity | discriminate ]. Qed.

(** C2, the claim as stated fails: a plugin built with a [device_ids]
    keyword of its own does not return a wrapper from [configure_ddp]; the
    constructor call raises [TypeError]. *)
Lemma configure_ddp_device_ids_kwarg_raises :
  (configure_ddp "net" [0%Z] (process clashing_kwargs ∅ false)).1
  = inl (Py.TypeError_multiple_values "device_ids")
  /\ ~ (exists w, (configure_ddp "net" [0%Z] (process clashing_kwargs ∅ false)).1
                  = inr w).
Proof.
  assert ((configure_ddp "net" [0%Z] (process clashing_kwargs ∅ false)).1
          = inl (Py.TypeError_multiple_values "device_ids")) as Hrun
      by (vm_compute; reflexivity).
  split; [ exact Hrun |]. intros [w Hw]. rewrite Hrun in Hw. discriminate Hw.
Qed.

(** C2 at [DDPPlugin(bucket_cap_mb=25)], model "net", devices 0 and 1,
    in a process whose group is initialized: the constructor accepts, and
    the wrapper holds what was forwarded. *)
Lemma configure_ddp_forwards_witness :
  self (process tuned_kwargs ∅ true) = __init__ tuned_kwargs
  /\ exists w : LightningDistributedDataParallel string,
      (configure_ddp "net" [0%Z; 1%Z] (process tuned_kwargs ∅ true)).1 = inr w
      /\ module w = "net"
      /\ device_ids w = [0%Z; 1%Z]
      /\ (forall k v, tuned_kwargs !! k = Some v -> kwargs w !! k = Some v)
      /\ dom (kwargs w) = dom tuned_kwargs ∪ {["find_unused_parameters"]}.
Proof.
  pose proof (configure_ddp_forwards tuned_kwargs "net" [0%Z; 1%Z]
                (process tuned_kwargs ∅ true) eq_refl)
    as (Hreceived & Hreturns & _).
  split; [ reflexivity |].
  eexists. split; [ apply Hreturns; vm_compute; reflexivity |].
  apply Hreceived. apply Hreturns; vm_compute; reflexivity.
Defined.

(** C2 on dictionaries that the constructor of the sample signature
    refuses: a [module] keyword, and a keyword it does not have. *)
Example configure_ddp_module_kwarg :
  (configure_ddp "net" [0%Z] (process module_kwargs ∅ true)).1
  = inl (Py.TypeError_multiple_values "module").
Proof. vm_compute. reflexivity. Qed.

Example configure_ddp_unknown_kwarg :
  (configure_ddp "net" [0%Z] (process foo_kwargs ∅ true)).1
  = inl (Py.TypeError_unexpected_keyword "foo").
Proof. vm_compute. reflexivity. Qed.

(** C4 on a GPU trainer, rank 0 of 2, from a fresh process. *)
Lemma init_ddp_connection_call_arguments_witness :
  InitProcessGroup "nccl" 0 2
    ∈ emitted (init_ddp_connection gpu_trainer a_cluster 0 2 true) (process ∅ ∅ false)
  /\ ("nccl" = (if on_gpu gpu_trainer then "nccl" else "gloo")
      /\ 0 = 0 /\ 2 = 2)%Z.
Proof.
  assert (InitProcessGroup "nccl" 0 2
            ∈ emitted (init_ddp_connection gpu_trainer a_cluster 0 2 true)
                      (process ∅ ∅ false)) as Hin
      by (rewrite init_ddp_connection_fresh; repeat constructor).
  split; [ exact Hin |].
  exact (init_ddp_connection_call_arguments
           gpu_trainer a_cluster 0 2 true (process ∅ ∅ false) "nccl" 0 2 Hin).
Defined.

(** C4 on a CPU trainer: the backend is "gloo". *)
Example init_ddp_connection_cpu :
  init_calls (emitted (init_ddp_connection cpu_trainer a_cluster 3 4 false)
                      (process ∅ ∅ false))
  = [ InitProcessGroup "gloo" 3 4 ].
Proof. vm_compute. reflexivity. Qed.

(** C7 on the same call: the four events before the call of
    [init_process_group] hold the three assignments. *)
Lemma init_ddp_connection_environ_before_init_witness :
  emitted (init_ddp_connection gpu_trainer a_cluster 0 2 true) (process ∅ ∅ false)
  = [ EnvironSet "MASTER_ADDR" "10.0.0.1"; EnvironSet "MASTER_PORT" "12910";
      EnvironSet "WORLD_SIZE" "2";
      LogInfo "initializing ddp: GLOBAL_RANK: 0, MEMBER: 1/2" ]
    ++ InitProcessGroup "nccl" 0 2 :: []
  /\ EnvironSet "MASTER_ADDR"
       (Py.str (ClusterEnvironment.master_address a_cluster))
     ∈ [ EnvironSet "MASTER_ADDR" "10.0.0.1"; EnvironSet "MASTER_PORT" "12910";
         EnvironSet "WORLD_SIZE" "2";
         LogInfo "initializing ddp: GLOBAL_RANK: 0, MEMBER: 1/2" ]
  /\ EnvironSet "MASTER_PORT"
       (Py.str (ClusterEnvironment.master_port a_cluster))
     ∈ [ EnvironSet "MASTER_ADDR" "10.0.0.1"; EnvironSet "MASTER_PORT" "12910";
         EnvironSet "WORLD_SIZE" "2";
         LogInfo "initializing ddp: GLOBAL_RANK: 0, MEMBER: 1/2" ]
  /\ EnvironSet "WORLD_SIZE"
       (Py.str (ClusterEnvironment.world_size a_cluster))
     ∈ [ EnvironSet "MASTER_ADDR" "10.0.0.1"; EnvironSet "MASTER_PORT" "12910";
         EnvironSet "WORLD_SIZE" "2";
         LogInfo "initializing ddp: GLOBAL_RANK: 0, MEMBER: 1/2" ].
Proof.
  split; [ exact init_ddp_connection_fresh |].
  exact (proj1 (init_ddp_connection_environ_before_init
                  gpu_trainer a_cluster 0 2 true (process ∅ ∅ false))
               [ EnvironSet "MASTER_ADDR" "10.0.0.1";
                 EnvironSet "MASTER_PORT" "12910";
                 EnvironSet "WORLD_SIZE" "2";
                 LogInfo "initializing ddp: GLOBAL_RANK: 0, MEMBER: 1/2" ]
               [] "nccl" 0%Z 2%Z init_ddp_connection_fresh).
Defined.

(** C8 at [DDPPlugin(bucket_cap_mb=25)]: the wrapper gets
    [find_unused_parameters=True] and the stored dictionary keeps it. *)
Lemma configure_ddp_find_unused_parameters_witness :
  self (process tuned_kwargs ∅ true) = __init__ tuned_kwargs
  /\ (exists w, (configure_ddp "net" [0%Z] (process tuned_kwargs ∅ true)).1 = inr w
                /\ kwargs w !! "find_unused_parameters" = Some (Py.Bool true))
  /\ is_Some (_ddp_kwargs (self (configure_ddp "net" [0%Z]
                                   (process tuned_kwargs ∅ true)).2)
              !! "find_unused_parameters").
Proof.
  pose proof (configure_ddp_find_unused_parameters tuned_kwargs "net" [0%Z]
                (process tuned_kwargs ∅ true) eq_refl)
    as (Hdefault & _ & Hstored & _ & Hreturns).
  split; [ reflexivity |]. split; [| exact Hstored ].
  destruct (Hreturns ltac:(vm_compute; reflexivity) ltac:(vm_compute; reflexivity))
    as [w Hw].
  exists w. split; [ exact Hw |].
  apply (Hdefault w Hw). vm_compute; reflexivity.
Defined.

(** C8 at [DDPPlugin(find_unused_parameters=False)]: the given value
    reaches the wrapper. *)
Example configure_ddp_strict :
  configure_ddp "net" [0%Z] (process strict_kwargs ∅ true)
  = (inr {| module := "net"; device_ids := [0%Z]; kwargs := strict_kwargs |},
     process strict_kwargs ∅ true).
Proof. vm_compute. reflexivity. Qed.

(** C8 when the constructor refuses (the group is not initialized): no
    wrapper, and the entry is stored all the same. *)
Example configure_ddp_refused_keeps_entry :
  configure_ddp "net" [0%Z] (process tuned_kwargs ∅ false)
  = (inl (Py.LibraryError "Default process group is not initialized"),
     process (<["find_unused_parameters" := Py.Bool true]> tuned_kwargs) ∅ false).
Proof. vm_compute. reflexivity. Qed.

(** C9 with the group initialized and a stale environment: the three
    entries are overwritten, [HOME] stays, nothing is initialized. *)
Lemma init_ddp_connection_environ_unconditional_witness :
  is_initialized (torch_distrib (process ∅ stale_environ true)) = true
  /\ (init_calls (emitted (init_ddp_connection gpu_trainer a_cluster 0 2 true)
                          (process ∅ stale_environ true)) = []
      /\ environ_sets (emitted (init_ddp_connection gpu_trainer a_cluster 0 2 true)
                               (process ∅ stale_environ true))
         = [ EnvironSet "MASTER_ADDR"
               (Py.str (ClusterEnvironment.master_address a_cluster));
             EnvironSet "MASTER_PORT"
               (Py.str (ClusterEnvironment.master_port a_cluster));
             EnvironSet "WORLD_SIZE"
               (Py.str (ClusterEnvironment.world_size a_cluster)) ]
      /\ os_environ (init_ddp_connection gpu_trainer a_cluster 0 2 true
                       (process ∅ stale_environ true)).2 !! "MASTER_ADDR"
         = Some (Py.str (ClusterEnvironment.master_address a_cluster))
      /\ os_environ (init_ddp_connection gpu_trainer a_cluster 0 2 true
                       (process ∅ stale_environ true)).2 !! "MASTER_PORT"
         = Some (Py.str (ClusterEnvironment.master_port a_cluster))
      /\ os_environ (init_ddp_connection gpu_trainer a_cluster 0 2 true
                       (process ∅ stale_environ true)).2 !! "WORLD_SIZE"
         = Some (Py.str (ClusterEnvironment.world_size a_cluster))).
Proof.
  split; [ reflexivity |].
  exact (init_ddp_connection_environ_unconditional
           gpu_trainer a_cluster 0 2 true (process ∅ stale_environ true) eq_refl).
Defined.

Example init_ddp_connection_stale_environ :
  os_environ (init_ddp_connection gpu_trainer a_cluster 0 2 true
                (process ∅ stale_environ true)).2
  = {[ "MASTER_ADDR" := "10.0.0.1"; "MASTER_PORT" := "12910";
       "WORLD_SIZE" := "2"; "HOME" := "/root" ]}.
Proof. vm_compute. reflexivity. Qed.

(** X1 at [DDPPlugin(device_ids=0)], in a process where the constructor
    would refuse as well: the call raises its own [TypeError], and the
    stored dictionary has got its [find_unused_parameters] all the
    same. *)
Lemma configure_ddp_raises_iff_witness :
  is_Some (_ddp_kwargs (self (process clashing_kwargs ∅ false)) !! "device_ids")
  /\ (configure_ddp "net" [0%Z] (process clashing_kwargs ∅ false)).1
     = inl (Py.TypeError_multiple_values "device_ids")
  /\ _ddp_kwargs (self (configure_ddp "net" [0%Z] (process clashing_kwargs ∅ false)).2)
       !! "find_unused_parameters"
     = Some (Py.get (_ddp_kwargs (self (process clashing_kwargs ∅ false)))
                    "find_unused_parameters" (Py.Bool true)).
Proof.
  assert (is_Some (_ddp_kwargs (self (process clashing_kwargs ∅ false))
                   !! "device_ids")) as Hclash
      by (exists (Py.Int 0); vm_compute; reflexivity).
  pose proof (configure_ddp_raises_iff "net" [0%Z] (process clashing_kwargs ∅ false))
    as (Hraises & _ & _ & Hstored & _).
  split; [ exact Hclash |]. split; [ exact (Hraises Hclash) | exact Hstored ].
Defined.

(** X7 with the sample signature, from a process whose group is not
    initialized: the state is the same in both orders, the result of
    [configure_ddp] is not. *)
Example configure_ddp_before_init :
  (configure_ddp "net" [0%Z] (process tuned_kwargs ∅ false)).1
  = inl (Py.LibraryError "Default process group is not initialized")
  /\ (configure_ddp "net" [0%Z]
        (init_ddp_connection gpu_trainer a_cluster 0 2 true
           (process tuned_kwargs ∅ false)).2).1
     = inr {| module := "net"; device_ids := [0%Z];
              kwargs := <["find_unused_parameters" := Py.Bool true]> tuned_kwargs |}.
Proof. vm_compute. split; reflexivity. Qed.


(** X5 on two calls from a fresh process, the second on a CPU trainer
    with another rank: one initialization, the first one's. *)
Example init_ddp_connection_two_calls :
  init_calls
    (emitted (init_ddp_connection gpu_trainer a_cluster 0 2 true ;;
              init_ddp_connection cpu_trainer a_cluster 1 4 true)
             (process ∅ ∅ false))
  = [ InitProcessGroup "nccl" 0 2 ].
Proof. vm_compute. reflexivity. Qed.

(** X8 on a call from a fresh process: the call of [init_process_group]
    is last and follows the log line. *)
Lemma init_ddp_connection_log_line_witness :
  emitted (init_ddp_connection gpu_trainer a_cluster 0 2 true) (process ∅ ∅ false)
  = [ EnvironSet "MASTER_ADDR" "10.0.0.1"; EnvironSet "MASTER_PORT" "12910";
      EnvironSet "WORLD_SIZE" "2";
      LogInfo "initializing ddp: GLOBAL_RANK: 0, MEMBER: 1/2" ]
    ++ InitProcessGroup "nccl" 0 2 :: []
  /\ (@nil Event = []
      /\ exists pre',
          [ EnvironSet "MASTER_ADDR" "10.0.0.1"; EnvironSet "MASTER_PORT" "12910";
            EnvironSet "WORLD_SIZE" "2";
            LogInfo "initializing ddp: GLOBAL_RANK: 0, MEMBER: 1/2" ]
          = pre' ++ [ LogInfo (initializing_ddp 0 2) ]).
Proof.
  split; [ exact init_ddp_connection_fresh |].
  exact (proj1 (init_ddp_connection_log_line
                  gpu_trainer a_cluster 0 2 true (process ∅ ∅ false))
               [ EnvironSet "MASTER_ADDR" "10.0.0.1";
                 EnvironSet "MASTER_PORT" "12910";
                 EnvironSet "WORLD_SIZE" "2";
                 LogInfo "initializing ddp: GLOBAL_RANK: 0, MEMBER: 1/2" ]
               [] "nccl" 0%Z 2%Z init_ddp_connection_fresh).
Defined.
